(** * pyrogram: [Client.get_history]

  A shallow embedding of [pyrogram/methods/messages/get_history.py].

  Python integers are unbounded, so they are [Z].  The coroutine awaits
  three collaborators ([resolve_peer], [invoke], [utils.parse_messages]);
  each [await] is a node of a small free monad, and a run against a client
  records the awaited calls, the client state and the outcome. *)

From Stdlib Require Import ZArith List String Bool Lia Permutation.
Import ListNotations.
Open Scope Z_scope.

(** ** Values *)

(** [chat_id: Union[int, str]]. *)
Inductive ChatId : Type :=
| ChatInt (n : Z)
| ChatStr (s : string).

(** Modelled from the spec: [datetime] and [utils.datetime_to_timestamp] are
  defined outside [get_history.py].  The spec's data model makes [offset_date] a
  timestamp whose epoch-zero value means unset, sent on the wire as unix
  seconds and passed through as it is; a [datetime] is therefore the
  number of seconds since the epoch that it denotes. *)
Record datetime : Type := { posix_seconds : Z }.

Module datetime_.
(** Modelled from the spec: [datetime.fromtimestamp(t)], the moment [t]
    seconds after the epoch. *)
Definition fromtimestamp (t : Z) : datetime := {| posix_seconds := t |}.
End datetime_.

Module utils.
(** Modelled from the spec: [utils.datetime_to_timestamp], the protocol
    timestamp (unix seconds) of a moment, passed through unchanged. *)
Definition datetime_to_timestamp (dt : datetime) : Z := posix_seconds dt.
End utils.

(** The request object [raw.functions.messages.GetHistory(...)], as the
  keyword arguments its constructor receives. *)
Module raw.
Record GetHistory {Peer : Type} : Type := {
  peer : Peer;
  offset_id : Z;
  offset_date : Z;
  add_offset : Z;
  limit : Z;
  max_id : Z;
  min_id : Z;
  hash : Z
}.
Arguments GetHistory : clear implicits.
End raw.

(** Truthiness-based [a or b] on Python integers: [a] when it is truthy
  (nonzero), [b] otherwise. *)
Definition py_or (a b : Z) : Z := if a =? 0 then b else a.

(** ** The coroutine monad *)

Section Coroutine.
(** [InputPeer], the raw [messages.Messages] reply and [types.Message] are
    declared elsewhere in the library; they are parameters here. *)
Variables Peer RawReply Message : Type.

(** A coroutine that awaits the three collaborators of [get_history]. *)
Inductive Prog (A : Type) : Type :=
| Return (a : A)
| AwaitResolvePeer (chat_id : ChatId) (k : Peer -> Prog A)
| AwaitInvoke (query : raw.GetHistory Peer) (sleep_threshold : Z)
              (k : RawReply -> Prog A)
| AwaitParseMessages (r : RawReply) (k : list Message -> Prog A).

Arguments Return {A} a.
Arguments AwaitResolvePeer {A} chat_id k.
Arguments AwaitInvoke {A} query sleep_threshold k.
Arguments AwaitParseMessages {A} r k.

Fixpoint bind {A B : Type} (p : Prog A) (f : A -> Prog B) : Prog B :=
  match p with
  | Return a => f a
  | AwaitResolvePeer c k => AwaitResolvePeer c (fun x => bind (k x) f)
  | AwaitInvoke q t k => AwaitInvoke q t (fun x => bind (k x) f)
  | AwaitParseMessages r k => AwaitParseMessages r (fun x => bind (k x) f)
  end.

(** [await self.resolve_peer(chat_id)] *)
Definition resolve_peer (chat_id : ChatId) : Prog Peer :=
  AwaitResolvePeer chat_id Return.

(** [await self.invoke(query, sleep_threshold=...)] *)
Definition invoke (query : raw.GetHistory Peer) (sleep_threshold : Z)
  : Prog RawReply :=
  AwaitInvoke query sleep_threshold Return.

(** [await utils.parse_messages(self, r)] *)
Definition parse_messages (r : RawReply) : Prog (list Message) :=
  AwaitParseMessages r Return.

Notation "x <- p ;; q" := (bind p (fun x => q))
  (at level 61, p at next level, right associativity).

(** ** [GetHistory.get_history] *)

Definition get_history
    (chat_id : ChatId) (limit offset offset_id : Z)
    (offset_date : datetime) (reverse : bool) : Prog (list Message) :=
  let offset_id := py_or offset_id (if reverse then 1 else 0) in
  peer <- resolve_peer chat_id ;;
  r <- invoke
         {| raw.peer := peer;
            raw.offset_id := offset_id;
            raw.offset_date := utils.datetime_to_timestamp offset_date;
            raw.add_offset :=
              offset * (if reverse then -1 else 1)
              - (if reverse then limit else 0);
            raw.limit := limit;
            raw.max_id := 0;
            raw.min_id := 0;
            raw.hash := 0 |}
         60 ;;
  messages <- parse_messages r ;;
  let messages := if reverse then rev messages else messages in
  Return messages.

(** The part of [get_history] that runs once [invoke] has returned [r]:
    parse the reply, then [if reverse: messages.reverse()]. *)
Definition normalize (r : RawReply) (reverse : bool) : Prog (list Message) :=
  messages <- parse_messages r ;;
  let messages := if reverse then rev messages else messages in
  Return messages.

(** The signature's defaults: [limit=100, offset=0, offset_id=0,
    offset_date=datetime.fromtimestamp(0), reverse=False]. *)
Record Kwargs : Type := {
  kw_limit : option Z;
  kw_offset : option Z;
  kw_offset_id : option Z;
  kw_offset_date : option datetime;
  kw_reverse : option bool
}.

Definition no_kwargs : Kwargs :=
  {| kw_limit := None; kw_offset := None; kw_offset_id := None;
     kw_offset_date := None; kw_reverse := None |}.

Definition or_default {A : Type} (o : option A) (d : A) : A :=
  match o with Some a => a | None => d end.

(** A call [app.get_history(chat_id, **kw)]: every keyword the caller
    leaves out takes the default of the signature. *)
Definition call_get_history (chat_id : ChatId) (kw : Kwargs)
  : Prog (list Message) :=
  get_history chat_id
    (or_default (kw_limit kw) 100)
    (or_default (kw_offset kw) 0)
    (or_default (kw_offset_id kw) 0)
    (or_default (kw_offset_date kw) (datetime_.fromtimestamp 0))
    (or_default (kw_reverse kw) false).

(** ** Running a coroutine against a client *)

Variables Exn World : Type.

(** What an [await] gives back: a value, a raised exception, or nothing
    because the awaited call never completes. *)
Inductive Result (A : Type) : Type :=
| Returned (a : A)
| Raised (e : Exn)
| Pending.

Arguments Returned {A} a.
Arguments Raised {A} e.
Arguments Pending {A}.

(** The collaborators, as transformers of the client state. *)
Record Client : Type := {
  do_resolve_peer : ChatId -> World -> World * Result Peer;
  do_invoke : raw.GetHistory Peer -> Z -> World -> World * Result RawReply;
  do_parse_messages : RawReply -> World -> World * Result (list Message)
}.

(** The awaited calls, in the order they were made. *)
Inductive Call : Type :=
| CallResolvePeer (chat_id : ChatId)
| CallInvoke (query : raw.GetHistory Peer) (sleep_threshold : Z)
| CallParseMessages (r : RawReply).

Record Outcome (A : Type) : Type := {
  calls : list Call;
  final : World;
  result : Result A
}.

Arguments calls {A} o.
Arguments final {A} o.
Arguments result {A} o.

(** One awaited call [c], answered by [ans]; the coroutine
    goes on with [k] only when a value came back.  No handler is installed
    anywhere in [Prog], so a raised exception ends the run. *)
Definition await {X A : Type} (c : Call) (ans : World * Result X)
    (k : X -> World -> Outcome A) : Outcome A :=
  match ans with
  | (w', Returned x) =>
      let o := k x w' in
      {| calls := c :: calls o; final := final o; result := result o |}
  | (w', Raised e) => {| calls := [c]; final := w'; result := Raised e |}
  | (w', Pending) => {| calls := [c]; final := w'; result := Pending |}
  end.

Fixpoint run {A : Type} (cl : Client) (p : Prog A) (w : World) : Outcome A :=
  match p with
  | Return a => {| calls := []; final := w; result := Returned a |}
  | AwaitResolvePeer c k =>
      await (CallResolvePeer c) (do_resolve_peer cl c w)
            (fun x => run cl (k x))
  | AwaitInvoke q t k =>
      await (CallInvoke q t) (do_invoke cl q t w) (fun x => run cl (k x))
  | AwaitParseMessages r k =>
      await (CallParseMessages r) (do_parse_messages cl r w)
            (fun x => run cl (k x))
  end.

End Coroutine.

Arguments Return {Peer RawReply Message A} a.
Arguments AwaitResolvePeer {Peer RawReply Message A} chat_id k.
Arguments AwaitInvoke {Peer RawReply Message A} query sleep_threshold k.
Arguments AwaitParseMessages {Peer RawReply Message A} r k.
Arguments bind {Peer RawReply Message A B} p f.
Arguments resolve_peer {Peer RawReply Message} chat_id.
Arguments invoke {Peer RawReply Message} query sleep_threshold.
Arguments parse_messages {Peer RawReply Message} r.
Arguments get_history {Peer RawReply Message}
  chat_id limit offset offset_id offset_date reverse.
Arguments normalize {Peer RawReply Message} r reverse.
Arguments call_get_history {Peer RawReply Message} chat_id kw.
Arguments Returned {Exn A} a.
Arguments Raised {Exn A} e.
Arguments Pending {Exn A}.
Arguments Build_Client {Peer RawReply Message Exn World} _ _ _.
Arguments do_resolve_peer {Peer RawReply Message Exn World} c _ _.
Arguments do_invoke {Peer RawReply Message Exn World} c _ _ _.
Arguments do_parse_messages {Peer RawReply Message Exn World} c _ _.
Arguments CallResolvePeer {Peer RawReply} chat_id.
Arguments CallInvoke {Peer RawReply} query sleep_threshold.
Arguments CallParseMessages {Peer RawReply} r.
Arguments calls {Peer RawReply Exn World A} o.
Arguments final {Peer RawReply Exn World A} o.
Arguments result {Peer RawReply Exn World A} o.
Arguments await {Peer RawReply Exn World X A} c ans k.
Arguments run {Peer RawReply Message Exn World A} cl p w.
Arguments Build_Outcome {Peer RawReply Exn World A} _ _ _.

(** ** A concrete client, used to exercise the statements below *)

Module Demo.

Definition Peer : Type := Z.
Definition Message : Type := string.
Definition RawReply : Type := list string.
Definition Exn : Type := string.

(** The client state counts the requests that reached the server. *)
Definition World : Type := nat.

Definition saved_messages : Peer := 777.

Definition client : Client Peer RawReply Message Exn World :=
  {| do_resolve_peer := fun c w =>
       match c with
       | ChatStr "me" => (w, Returned saved_messages)
       | ChatInt n => (w, Returned n)
       | ChatStr _ => (w, Raised "USERNAME_NOT_OCCUPIED"%string)
       end;
     do_invoke := fun q t w =>
       if raw.limit q <? 0 then (S w, Raised "LIMIT_INVALID"%string)
       else (S w, Returned ["A"; "B"; "C"]%string);
     do_parse_messages := fun r w =>
       if (3 <? List.length r)%nat then (w, Raised "TOO_MANY"%string)
       else (w, Returned r) |}.

Definition me : ChatId := ChatStr "me".
Definition epoch : datetime := datetime_.fromtimestamp 0.

End Demo.

(** ** The invocation wrapper *)

(** Modelled from the spec: [Client.invoke] is defined outside
    [get_history.py].  The
    spec (section 4.3, InvocationWrapper, and the transport contract of
    section 6) gives it as a machine with the states ATTEMPT and WAIT-RETRY
    over a transport whose [send] answers with a reply, a rate-limit signal,
    a transient error or a fatal error. *)
Module InvocationWrapper.

Section Wrapper.
Variables Request Reply Cause Transport : Type.

Inductive Response : Type :=
| ResponseValue (r : Reply)
| RateLimitSignal (w : Z)
| TransientError
| FatalError (c : Cause).

(** The error taxonomy of section 7. *)
Inductive Error : Type :=
| UnknownPeer
| AmbiguousReference
| FloodWait (w : Z)
| RemoteUnavailable
| ProtocolError (c : Cause).

Inductive State : Type :=
| ATTEMPT (budget : nat)
| WAIT_RETRY (w : Z) (budget : nat)
| DONE (r : Reply)
| FAILED (e : Error).

(** What the wrapper does to the outside: a send, or a suspension. *)
Inductive Action : Type :=
| Send (call : Request)
| Suspend (w : Z).

Variable send : Request -> Transport -> Transport * Response.

(** The fixed small retry budget for transient errors. *)
Variable retry_budget : nat.

(** The transition out of ATTEMPT on the transport's answer. *)
Definition on_response (floodWaitThreshold : Z) (budget : nat)
    (resp : Response) : State :=
  match resp with
  | ResponseValue r => DONE r
  | RateLimitSignal w =>
      if w <=? floodWaitThreshold then WAIT_RETRY w budget
      else FAILED (FloodWait w)
  | TransientError =>
      match budget with
      | S budget' => ATTEMPT budget'
      | O => FAILED RemoteUnavailable
      end
  | FatalError c => FAILED (ProtocolError c)
  end.

Definition step (call : Request) (floodWaitThreshold : Z)
    (st : State) (t : Transport) : option (Action * State * Transport) :=
  match st with
  | ATTEMPT budget =>
      let (t', resp) := send call t in
      Some (Send call, on_response floodWaitThreshold budget resp, t')
  | WAIT_RETRY w budget => Some (Suspend w, ATTEMPT budget, t)
  | DONE _ => None
  | FAILED _ => None
  end.

(** At most [fuel] transitions of the machine. *)
Fixpoint drive (fuel : nat) (call : Request) (floodWaitThreshold : Z)
    (st : State) (t : Transport) : list Action * State * Transport :=
  match fuel with
  | O => ([], st, t)
  | S fuel' =>
      match step call floodWaitThreshold st t with
      | None => ([], st, t)
      | Some (a, st', t') =>
          let '(acts, st'', t'') :=
            drive fuel' call floodWaitThreshold st' t' in
          (a :: acts, st'', t'')
      end
  end.

Definition outcome (st : State) : Result Error Reply :=
  match st with
  | DONE r => Returned r
  | FAILED e => Raised e
  | ATTEMPT _ => Pending
  | WAIT_RETRY _ _ => Pending
  end.

(** [invoke(call, floodWaitThreshold)], watched for [fuel] transitions. *)
Definition invoke (fuel : nat) (call : Request) (floodWaitThreshold : Z)
    (t : Transport) : list Action * State * Transport :=
  drive fuel call floodWaitThreshold (ATTEMPT retry_budget) t.

(** The client state of a wrapper-backed client: the transport, and the
    journal of what the wrapper did to it. *)
Record Net : Type := {
  transport : Transport;
  journal : list Action
}.

Definition invoke_on (fuel : nat) (call : Request) (floodWaitThreshold : Z)
    (n : Net) : Net * Result Error Reply :=
  let '(acts, st, t') := invoke fuel call floodWaitThreshold (transport n) in
  ({| transport := t'; journal := journal n ++ acts |}, outcome st).

End Wrapper.

Arguments ResponseValue {Reply Cause} r.
Arguments RateLimitSignal {Reply Cause} w.
Arguments TransientError {Reply Cause}.
Arguments FatalError {Reply Cause} c.
Arguments UnknownPeer {Cause}.
Arguments AmbiguousReference {Cause}.
Arguments FloodWait {Cause} w.
Arguments RemoteUnavailable {Cause}.
Arguments ProtocolError {Cause} c.
Arguments ATTEMPT {Reply Cause} budget.
Arguments WAIT_RETRY {Reply Cause} w budget.
Arguments DONE {Reply Cause} r.
Arguments FAILED {Reply Cause} e.
Arguments Send {Request} call.
Arguments Suspend {Request} w.
Arguments on_response {Reply Cause} floodWaitThreshold budget resp.
Arguments step {Request Reply Cause Transport} send call floodWaitThreshold st t.
Arguments drive {Request Reply Cause Transport} send fuel call
  floodWaitThreshold st t.
Arguments outcome {Reply Cause} st.
Arguments invoke {Request Reply Cause Transport} send retry_budget fuel call
  floodWaitThreshold t.
Arguments Build_Net {Request Transport} _ _.
Arguments transport {Request Transport} n.
Arguments journal {Request Transport} n.
Arguments invoke_on {Request Reply Cause Transport} send retry_budget fuel
  call floodWaitThreshold n.

(** A client whose [invoke] is the wrapper over a transport; peer
    resolution and parsing do not touch the transport. *)
Definition client {Peer RawReply Message Cause Transport : Type}
    (send : raw.GetHistory Peer -> Transport ->
            Transport * @Response RawReply Cause)
    (retry_budget fuel : nat)
    (resolve : ChatId -> Result (@Error Cause) Peer)
    (parse : RawReply -> Result (@Error Cause) (list Message))
  : Client Peer RawReply Message (@Error Cause)
           (@Net (raw.GetHistory Peer) Transport) :=
  {| do_resolve_peer := fun c n => (n, resolve c);
     do_invoke := invoke_on send retry_budget fuel;
     do_parse_messages := fun r n => (n, parse r) |}.

End InvocationWrapper.

(** A wrapper-backed client over a server that rate-limits the first
    request for [wait] seconds and answers every later one. *)
Module DemoNet.
Import InvocationWrapper.

Definition Cause : Type := string.
Definition Transport : Type := nat.

Definition send (wait : Z) (q : raw.GetHistory Demo.Peer) (n : Transport)
  : Transport * @Response Demo.RawReply Cause :=
  (S n, if (n =? 0)%nat then RateLimitSignal wait
        else ResponseValue ["A"; "B"; "C"]%string).

Definition client (wait : Z)
  : Client Demo.Peer Demo.RawReply Demo.Message (@Error Cause)
           (@Net (raw.GetHistory Demo.Peer) Transport) :=
  InvocationWrapper.client (send wait) 2 8
    (fun _ => Returned Demo.saved_messages) (fun r => Returned r).

Definition start : @Net (raw.GetHistory Demo.Peer) Transport :=
  {| transport := 0%nat; journal := [] |}.

(** The request of [get_history("me", limit=3)]. *)
Definition last_three : raw.GetHistory Demo.Peer :=
  {| raw.peer := Demo.saved_messages; raw.offset_id := 0;
     raw.offset_date := 0; raw.add_offset := 0; raw.limit := 3;
     raw.max_id := 0; raw.min_id := 0; raw.hash := 0 |}.

(** A server that rate-limits the first [count] requests. *)
Definition send_first (count : nat) (wait : Z)
    (q : raw.GetHistory Demo.Peer) (n : Transport)
  : Transport * @Response Demo.RawReply Cause :=
  (S n, if (n <? count)%nat then RateLimitSignal wait
        else ResponseValue ["A"; "B"; "C"]%string).

End DemoNet.

(** ** What [get_history] awaits *)

Section Awaited.
Context {Peer RawReply Message Exn World : Type}.
Implicit Types (cl : Client Peer RawReply Message Exn World) (w : World).
Implicit Types (q : raw.GetHistory Peer) (chat : ChatId) (rv : bool).

(** Every [invoke] awaited by a run of [get_history] carries the request
    built on lines 90-99, for the peer that [resolve_peer] returned, and
    [sleep_threshold=60]. *)
Lemma invoked_request cl chat lim off oid od rv w q thr :
  In (CallInvoke q thr) (calls (run cl (get_history chat lim off oid od rv) w)) ->
  (exists w1, do_resolve_peer cl chat w = (w1, Returned (raw.peer q)))
  /\ thr = 60
  /\ q = {| raw.peer := raw.peer q;
            raw.offset_id := py_or oid (if rv then 1 else 0);
            raw.offset_date := utils.datetime_to_timestamp od;
            raw.add_offset :=
              off * (if rv then -1 else 1) - (if rv then lim else 0);
            raw.limit := lim;
            raw.max_id := 0; raw.min_id := 0; raw.hash := 0 |}.
Proof.
  unfold get_history; simpl; unfold await.
  destruct (do_resolve_peer cl chat w) as [w1 [p | e | ]] eqn:Hres; simpl;
    try (intros [H | []]; discriminate H).
  intros [H | H]; [discriminate H |].
  assert (Hq : exists p', raw.peer q = p'
            /\ @CallInvoke Peer RawReply q thr =
               CallInvoke
                 {| raw.peer := p';
                    raw.offset_id := py_or oid (if rv then 1 else 0);
                    raw.offset_date := utils.datetime_to_timestamp od;
                    raw.add_offset :=
                      off * (if rv then -1 else 1) - (if rv then lim else 0);
                    raw.limit := lim;
                    raw.max_id := 0; raw.min_id := 0; raw.hash := 0 |} 60
            /\ p' = p).
  { destruct (do_invoke cl _ 60 w1) as [w2 [r | e | ]]; simpl in H;
      try (destruct H as [H | []]; inversion H; subst; simpl;
           eexists; repeat split; reflexivity).
    destruct H as [H | H];
      [inversion H; subst; simpl; eexists; repeat split; reflexivity |].
    destruct (do_parse_messages cl r w2) as [w3 [ms | e | ]]; simpl in H;
      destruct H as [H | H]; try discriminate H; contradiction. }
  destruct Hq as (p' & Hp & Hq & ->).
  inversion Hq; subst q thr; simpl.
  split; [exists w1; reflexivity | split; reflexivity].
Qed.

(** Once the peer is resolved the request is sent: the statements about
    awaited [invoke] calls are about something that happens. *)
Lemma resolved_invokes cl chat lim off oid od rv w w1 p :
  do_resolve_peer cl chat w = (w1, Returned p) ->
  exists q, raw.peer q = p
    /\ In (CallInvoke q 60)
          (calls (run cl (get_history chat lim off oid od rv) w)).
Proof.
  intros Hres. eexists; split; [| unfold get_history; simpl; unfold await;
    rewrite Hres; simpl; right;
    destruct (do_invoke cl _ 60 w1) as [w2 [r | e | ]]; simpl; left;
    reflexivity ].
  reflexivity.
Qed.

Lemma py_or_nonzero a b : a <> 0 -> py_or a b = a.
Proof. unfold py_or; intros H; destruct (Z.eqb_spec a 0); congruence. Qed.

Lemma py_or_zero b : py_or 0 b = b.
Proof. reflexivity. Qed.

End Awaited.

(** ** The request on the wire *)

Section Wire.
Context {Peer RawReply Message Exn World : Type}.
Implicit Types (cl : Client Peer RawReply Message Exn World) (w : World).
Implicit Types (q : raw.GetHistory Peer) (chat : ChatId) (rv : bool).

(** C1: a fetch whose peer resolves sends a request, and the [add_offset]
    of every request that [get_history] sends is
    [offset * (-1 if reverse else 1) - (limit if reverse else 0)]: the
    caller's [offset] when [reverse] is false, and [-offset - limit] when
    [reverse] is true. *)
Theorem add_offset_on_wire cl chat lim off oid od rv w :
  let o := run cl (get_history chat lim off oid od rv) w in
  (forall w1 p,
      do_resolve_peer cl chat w = (w1, Returned p) ->
      exists q,
        raw.peer q = p
        /\ In (CallInvoke q 60) (calls o)
        /\ raw.add_offset q
           = off * (if rv then -1 else 1) - (if rv then lim else 0)
        /\ (rv = false -> raw.add_offset q = off)
        /\ (rv = true -> raw.add_offset q = - off - lim))
  /\ (forall q thr,
      In (CallInvoke q thr) (calls o) ->
      raw.add_offset q
        = off * (if rv then -1 else 1) - (if rv then lim else 0)
      /\ (rv = false -> raw.add_offset q = off)
      /\ (rv = true -> raw.add_offset q = - off - lim)).
Proof.
  intros o.
  assert (Hall : forall q thr,
             In (CallInvoke q thr) (calls o) ->
             raw.add_offset q
               = off * (if rv then -1 else 1) - (if rv then lim else 0)
             /\ (rv = false -> raw.add_offset q = off)
             /\ (rv = true -> raw.add_offset q = - off - lim)).
  { intros q thr H. apply invoked_request in H.
    destruct H as (_ & _ & ->); simpl.
    split; [reflexivity |]. split; intros ->; lia. }
  split; [| exact Hall].
  intros w1 p Hres.
  destruct (resolved_invokes cl chat lim off oid od rv w w1 p Hres)
    as (q & Hp & Hin).
  exists q. split; [exact Hp |]. split; [exact Hin |].
  exact (Hall q 60 Hin).
Qed.



(** C9: a nonzero [offset_id] of the caller, negative ones included, is
    sent unchanged whatever [reverse] is; the request's [offset_id] differs
    from the caller's only when the caller's is exactly 0. *)
Theorem nonzero_offset_id_unchanged cl chat lim off oid od rv w q thr :
  In (CallInvoke q thr) (calls (run cl (get_history chat lim off oid od rv) w)) ->
  (oid <> 0 -> raw.offset_id q = oid)
  /\ (oid < 0 -> raw.offset_id q = oid)
  /\ (raw.offset_id q <> oid -> oid = 0 /\ rv = true).
Proof.
  intros H. apply invoked_request in H. destruct H as (_ & _ & ->); simpl.
  split; [apply py_or_nonzero |].
  split; [intros Hneg; apply py_or_nonzero; lia |].
  unfold py_or. destruct (Z.eqb_spec oid 0) as [-> | Hnz].
  - destruct rv; intros Hd; [split; reflexivity | contradiction Hd; reflexivity].
  - intros Hd; contradiction Hd; reflexivity.
Qed.

(** C10: for fixed [chat_id], [limit], [offset], [offset_id] and
    [offset_date], the requests sent with [reverse=True] and with
    [reverse=False] from the same client state have the same [peer],
    [offset_date], [limit], [max_id], [min_id] and [hash] (and the same
    [offset_id] unless the caller's is 0). *)
Theorem reverse_frame cl chat lim off oid od w q1 thr1 q2 thr2 :
  In (CallInvoke q1 thr1)
     (calls (run cl (get_history chat lim off oid od true) w)) ->
  In (CallInvoke q2 thr2)
     (calls (run cl (get_history chat lim off oid od false) w)) ->
  raw.peer q1 = raw.peer q2
  /\ raw.offset_date q1 = raw.offset_date q2
  /\ raw.limit q1 = raw.limit q2
  /\ raw.max_id q1 = raw.max_id q2
  /\ raw.min_id q1 = raw.min_id q2
  /\ raw.hash q1 = raw.hash q2
  /\ (oid <> 0 -> raw.offset_id q1 = raw.offset_id q2).
Proof.
  intros H1 H2.
  apply invoked_request in H1. destruct H1 as ((w1 & Hp1) & _ & E1).
  apply invoked_request in H2. destruct H2 as ((w2 & Hp2) & _ & E2).
  assert (Hp : raw.peer q1 = raw.peer q2) by congruence.
  rewrite E1, E2; simpl.
  repeat split; auto.
  intros Hnz. rewrite !py_or_nonzero by exact Hnz. reflexivity.
Qed.

(** C8: the request is a function of the pagination arguments and the
    resolved peer alone: two fetches with the same [limit], [offset],
    [offset_id], [offset_date] and [reverse] whose peers resolve to the same
    descriptor send identical requests, whatever the clients, their states
    and the chat references are. *)
Theorem request_deterministic cl1 cl2 chat1 chat2 lim off oid od rv w1 w2
    q1 thr1 q2 thr2 :
  In (CallInvoke q1 thr1)
     (calls (run cl1 (get_history chat1 lim off oid od rv) w1)) ->
  In (CallInvoke q2 thr2)
     (calls (run cl2 (get_history chat2 lim off oid od rv) w2)) ->
  raw.peer q1 = raw.peer q2 ->
  q1 = q2 /\ thr1 = thr2.
Proof.
  intros H1 H2 Hp.
  apply invoked_request in H1. destruct H1 as (_ & -> & E1).
  apply invoked_request in H2. destruct H2 as (_ & -> & E2).
  split; [| reflexivity].
  rewrite E1, E2, Hp. reflexivity.
Qed.


End Wire.

(** ** Normalisation of the reply *)

Section Normalisation.
Context {Peer RawReply Message Exn World : Type}.
Implicit Types (cl : Client Peer RawReply Message Exn World) (w : World).
Implicit Types (r : RawReply) (chat : ChatId) (rv : bool).

(** [get_history] ends with [normalize] on the reply of [invoke]. *)
Lemma get_history_normalize chat lim off oid od rv :
  @get_history Peer RawReply Message chat lim off oid od rv =
  bind (resolve_peer chat) (fun peer =>
  bind (invoke
          {| raw.peer := peer;
             raw.offset_id := py_or oid (if rv then 1 else 0);
             raw.offset_date := utils.datetime_to_timestamp od;
             raw.add_offset :=
               off * (if rv then -1 else 1) - (if rv then lim else 0);
             raw.limit := lim;
             raw.max_id := 0; raw.min_id := 0; raw.hash := 0 |} 60)
       (fun r => normalize r rv)).
Proof. reflexivity. Qed.

(** The outcome of [normalize]: the parser's, with the list reversed when
    [reverse] is set. *)
Lemma run_normalize cl r rv w :
  run cl (normalize r rv) w =
  match do_parse_messages cl r w with
  | (w', Returned ms) =>
      {| calls := [CallParseMessages r]; final := w';
         result := Returned (if rv then rev ms else ms) |}
  | (w', Raised e) =>
      {| calls := [CallParseMessages r]; final := w'; result := Raised e |}
  | (w', Pending) =>
      {| calls := [CallParseMessages r]; final := w'; result := Pending |}
  end.
Proof.
  unfold normalize; simpl; unfold await.
  destruct (do_parse_messages cl r w) as [w' [ms | e | ]]; reflexivity.
Qed.

(** A fetch whose [invoke] returned [r] ends as [normalize] does on [r]. *)
Lemma fetch_ends_in_normalize cl chat lim off oid od rv w w1 w2 q thr r :
  let o := run cl (get_history chat lim off oid od rv) w in
  In (CallInvoke q thr) (calls o) ->
  do_resolve_peer cl chat w = (w1, Returned (raw.peer q)) ->
  do_invoke cl q 60 w1 = (w2, Returned r) ->
  In (CallParseMessages r) (calls o)
  /\ result o = result (run cl (normalize r rv) w2)
  /\ final o = final (run cl (normalize r rv) w2).
Proof.
  intros o Hin Hres Hinv.
  apply invoked_request in Hin. destruct Hin as (_ & _ & Eq).
  subst o. unfold get_history, normalize; simpl; unfold await.
  rewrite Hres; simpl. rewrite <- Eq, Hinv; simpl.
  destruct (do_parse_messages cl r w2) as [w3 [ms | e | ]]; simpl;
    (split; [right; right; left; reflexivity | split; reflexivity]).
Qed.

(** The two directions of [normalize] on one reply and client state. *)
Lemma normalize_both cl r w :
  (forall ms, result (run cl (normalize r true) w) = Returned ms ->
              result (run cl (normalize r false) w) = Returned (rev ms))
  /\ (forall ms, result (run cl (normalize r false) w) = Returned ms ->
                 result (run cl (normalize r true) w) = Returned (rev ms))
  /\ final (run cl (normalize r true) w) = final (run cl (normalize r false) w).
Proof.
  rewrite !run_normalize.
  destruct (do_parse_messages cl r w) as [w' [ms0 | e | ]]; simpl;
    repeat split; intros ms H; try discriminate H.
  - inversion H; subst. rewrite rev_involutive. reflexivity.
  - inversion H; subst. reflexivity.
Qed.

(** C3: a fetch whose peer resolves sends its request, and when [invoke]
    answers it with the raw reply [r] the fetch hands [r] to the parser and
    returns what normalization of [r] returns.  For two fetches, one with
    [reverse=True] and one with [reverse=False], whose [invoke] returned
    the same raw reply (and client state): each returns exactly when the
    other does, and the sequence of one, reversed, is the sequence of the
    other.  The same holds of the normalization step on its own. *)
Theorem normalize_reverse_roundtrip cl r w2 :
  (forall chat lim off oid od rv w w1 p,
      let o := run cl (get_history chat lim off oid od rv) w in
      do_resolve_peer cl chat w = (w1, Returned p) ->
      exists q,
        raw.peer q = p
        /\ In (CallInvoke q 60) (calls o)
        /\ (do_invoke cl q 60 w1 = (w2, Returned r) ->
            In (CallParseMessages r) (calls o)
            /\ result o = result (run cl (normalize r rv) w2)
            /\ final o = final (run cl (normalize r rv) w2)))
  /\ (forall chat lim off oid od w w1 q thr
             chat' lim' off' oid' od' w' w1' q' thr',
      let o_r := run cl (get_history chat lim off oid od true) w in
      let o_f := run cl (get_history chat' lim' off' oid' od' false) w' in
      In (CallInvoke q thr) (calls o_r) ->
      do_resolve_peer cl chat w = (w1, Returned (raw.peer q)) ->
      do_invoke cl q 60 w1 = (w2, Returned r) ->
      In (CallInvoke q' thr') (calls o_f) ->
      do_resolve_peer cl chat' w' = (w1', Returned (raw.peer q')) ->
      do_invoke cl q' 60 w1' = (w2, Returned r) ->
      (forall ms, result o_r = Returned ms -> result o_f = Returned (rev ms))
      /\ (forall ms, result o_f = Returned ms -> result o_r = Returned (rev ms))
      /\ final o_r = final o_f)
  /\ (forall ms, result (run cl (normalize r true) w2) = Returned ms ->
                 result (run cl (normalize r false) w2) = Returned (rev ms))
  /\ (forall ms, result (run cl (normalize r false) w2) = Returned ms ->
                 result (run cl (normalize r true) w2) = Returned (rev ms))
  /\ final (run cl (normalize r true) w2)
     = final (run cl (normalize r false) w2).
Proof.
  destruct (normalize_both cl r w2) as (Htf & Hft & Hfin).
  split; [| split; [| exact (conj Htf (conj Hft Hfin))]].
  - intros chat lim off oid od rv w w1 p o Hres.
    destruct (resolved_invokes cl chat lim off oid od rv w w1 p Hres)
      as (q & Hp & Hin).
    exists q. split; [exact Hp | split; [exact Hin |]].
    intros Hinv. rewrite <- Hp in Hres.
    exact (fetch_ends_in_normalize cl chat lim off oid od rv w w1 w2 q 60 r
             Hin Hres Hinv).
  - intros chat lim off oid od w w1 q thr chat' lim' off' oid' od' w' w1' q'
      thr' o_r o_f Hin Hres Hinv Hin' Hres' Hinv'.
    destruct (fetch_ends_in_normalize cl chat lim off oid od true w w1 w2 q
                thr r Hin Hres Hinv) as (_ & Er & Efr).
    destruct (fetch_ends_in_normalize cl chat' lim' off' oid' od' false w' w1'
                w2 q' thr' r Hin' Hres' Hinv') as (_ & Ef & Eff).
    fold o_r in Er, Efr. fold o_f in Ef, Eff.
    rewrite Er, Ef, Efr, Eff.
    exact (conj Htf (conj Hft Hfin)).
Qed.

End Normalisation.

(** ** Failures *)

Section Failures.
Context {Peer RawReply Message Exn World : Type}.
Implicit Types (cl : Client Peer RawReply Message Exn World) (w : World).
Implicit Types (q : raw.GetHistory Peer) (chat : ChatId) (rv : bool).

(** C7: an exception raised by [resolve_peer], by [invoke] or by
    [parse_messages] is the outcome of [get_history], unchanged; an
    exception that [get_history] raises was raised by one of the three; and
    [get_history] returns a sequence only when all three returned, the
    sequence being the whole parsed list (reversed when [reverse] is set). *)
Theorem failures_propagate cl chat lim off oid od rv w :
  let o := run cl (get_history chat lim off oid od rv) w in
  (forall w1 e,
      do_resolve_peer cl chat w = (w1, Raised e) ->
      result o = Raised e /\ final o = w1)
  /\ (forall q thr w1 w2 e,
      In (CallInvoke q thr) (calls o) ->
      do_resolve_peer cl chat w = (w1, Returned (raw.peer q)) ->
      do_invoke cl q thr w1 = (w2, Raised e) ->
      result o = Raised e /\ final o = w2)
  /\ (forall q thr r w1 w2 w3 e,
      In (CallInvoke q thr) (calls o) ->
      do_resolve_peer cl chat w = (w1, Returned (raw.peer q)) ->
      do_invoke cl q thr w1 = (w2, Returned r) ->
      do_parse_messages cl r w2 = (w3, Raised e) ->
      result o = Raised e /\ final o = w3)
  /\ (forall e,
      result o = Raised e ->
      (exists w1, do_resolve_peer cl chat w = (w1, Raised e))
      \/ (exists q w1 w2,
            do_resolve_peer cl chat w = (w1, Returned (raw.peer q))
            /\ In (CallInvoke q 60) (calls o)
            /\ do_invoke cl q 60 w1 = (w2, Raised e))
      \/ (exists q r w1 w2 w3,
            do_resolve_peer cl chat w = (w1, Returned (raw.peer q))
            /\ do_invoke cl q 60 w1 = (w2, Returned r)
            /\ do_parse_messages cl r w2 = (w3, Raised e)))
  /\ (forall ms,
      result o = Returned ms ->
      exists q r msgs w1 w2 w3,
        do_resolve_peer cl chat w = (w1, Returned (raw.peer q))
        /\ do_invoke cl q 60 w1 = (w2, Returned r)
        /\ do_parse_messages cl r w2 = (w3, Returned msgs)
        /\ calls o = [CallResolvePeer chat; CallInvoke q 60;
                      CallParseMessages r]
        /\ ms = (if rv then rev msgs else msgs)
        /\ final o = w3).
Proof.
  intros o.
  split; [| split; [| split; [| split]]].
  - intros w1 e Hres. subst o. unfold get_history; simpl; unfold await.
    rewrite Hres. split; reflexivity.
  - intros q thr w1 w2 e Hin Hres Hinv.
    apply invoked_request in Hin. destruct Hin as (_ & -> & Eq).
    subst o. unfold get_history; simpl; unfold await.
    rewrite Hres; simpl. rewrite <- Eq, Hinv. split; reflexivity.
  - intros q thr r w1 w2 w3 e Hin Hres Hinv Hparse.
    apply invoked_request in Hin. destruct Hin as (_ & -> & Eq).
    subst o. unfold get_history; simpl; unfold await.
    rewrite Hres; simpl. rewrite <- Eq, Hinv; simpl. rewrite Hparse.
    split; reflexivity.
  - intros e. subst o. unfold get_history; simpl; unfold await.
    destruct (do_resolve_peer cl chat w) as [w1 [p | e1 | ]] eqn:Hres; simpl;
      [| intros H; inversion H; subst; left; exists w1; reflexivity
       | discriminate ].
    match goal with
    | |- context [do_invoke cl ?Q 60 w1] => set (q := Q)
    end.
    destruct (do_invoke cl q 60 w1) as [w2 [r | e2 | ]] eqn:Hinv; simpl;
      [| intros H; inversion H; subst; right; left;
         exists q, w1, w2; repeat split; [right; left; reflexivity | exact Hinv]
       | discriminate ].
    destruct (do_parse_messages cl r w2) as [w3 [ms | e3 | ]] eqn:Hparse;
      simpl; [discriminate | | discriminate].
    intros H; inversion H; subst. right; right.
    exists q, r, w1, w2, w3. repeat split; assumption.
  - intros ms. subst o. unfold get_history; simpl; unfold await.
    destruct (do_resolve_peer cl chat w) as [w1 [p | e1 | ]] eqn:Hres; simpl;
      try discriminate.
    match goal with
    | |- context [do_invoke cl ?Q 60 w1] => set (q := Q)
    end.
    destruct (do_invoke cl q 60 w1) as [w2 [r | e2 | ]] eqn:Hinv; simpl;
      try discriminate.
    destruct (do_parse_messages cl r w2) as [w3 [msgs | e3 | ]] eqn:Hparse;
      simpl; try discriminate.
    intros H; inversion H; subst.
    exists q, r, msgs, w1, w2, w3. repeat split; assumption.
Qed.

End Failures.

(** ** Rate limiting *)

Section FloodWait.
Import InvocationWrapper.
Context {Request Reply Cause Transport : Type}.
Variable send : Request -> Transport -> Transport * @Response Reply Cause.
Implicit Types (call : Request) (t : Transport) (budget fuel : nat).

(** A wait within the threshold: ATTEMPT sends, moves to WAIT-RETRY, which
    suspends for the wait and moves back to ATTEMPT with the same call. *)
Lemma step_wait_retry call thr budget t t' wait :
  send call t = (t', RateLimitSignal wait) ->
  wait <= thr ->
  step send call thr (ATTEMPT budget) t
    = Some (Send call, WAIT_RETRY wait budget, t')
  /\ step send call thr (WAIT_RETRY wait budget) t'
    = Some (Suspend wait, ATTEMPT budget, t').
Proof.
  intros Hs Hle. unfold step. rewrite Hs. simpl.
  destruct (Z.leb_spec wait thr); [split; reflexivity | lia].
Qed.

(** A wait above the threshold: ATTEMPT sends and fails with [FloodWait];
    the failed state has no transition. *)
Lemma step_flood_wait call thr budget t t' wait :
  send call t = (t', RateLimitSignal wait) ->
  thr < wait ->
  step send call thr (ATTEMPT budget) t
    = Some (Send call, FAILED (FloodWait wait), t')
  /\ (forall t'', step send call thr (FAILED (FloodWait wait)) t'' = None).
Proof.
  intros Hs Hlt. unfold step. rewrite Hs. simpl.
  destruct (Z.leb_spec wait thr); [lia | split; reflexivity].
Qed.

(** Whatever the answer, a machine in ATTEMPT with fuel left sends. *)
Lemma drive_attempt_sends fuel call thr budget t :
  exists acts st t',
    drive send (S fuel) call thr (ATTEMPT budget) t = (Send call :: acts, st, t').
Proof.
  simpl. destruct (send call t) as [t1 resp].
  destruct (drive send fuel call thr (on_response thr budget resp) t1)
    as [[acts st] t2].
  exists acts, st, t2. reflexivity.
Qed.

Lemma drive_wait_retry fuel call thr budget t t' wait :
  send call t = (t', RateLimitSignal wait) ->
  wait <= thr ->
  drive send (S (S fuel)) call thr (ATTEMPT budget) t =
  (let '(acts, st, t'') := drive send fuel call thr (ATTEMPT budget) t' in
   (Send call :: Suspend wait :: acts, st, t'')).
Proof.
  intros Hs Hle.
  destruct (step_wait_retry call thr budget t t' wait Hs Hle) as [H1 H2].
  change (drive send (S (S fuel)) call thr (ATTEMPT budget) t) with
    (match step send call thr (ATTEMPT budget) t with
     | None => ([], ATTEMPT budget, t)
     | Some (a, st', t1) =>
         let '(acts, st'', t'') := drive send (S fuel) call thr st' t1 in
         (a :: acts, st'', t'')
     end).
  rewrite H1.
  change (drive send (S fuel) call thr (WAIT_RETRY wait budget) t') with
    (match step send call thr (WAIT_RETRY wait budget) t' with
     | None => ([], WAIT_RETRY wait budget, t')
     | Some (a, st', t1) =>
         let '(acts, st'', t'') := drive send fuel call thr st' t1 in
         (a :: acts, st'', t'')
     end).
  rewrite H2.
  destruct (drive send fuel call thr (ATTEMPT budget) t') as [[acts st] t2].
  reflexivity.
Qed.

Lemma drive_flood_wait fuel call thr budget t t' wait :
  send call t = (t', RateLimitSignal wait) ->
  thr < wait ->
  drive send (S fuel) call thr (ATTEMPT budget) t
    = ([Send call], FAILED (FloodWait wait), t').
Proof.
  intros Hs Hlt.
  destruct (step_flood_wait call thr budget t t' wait Hs Hlt) as [H1 H2].
  change (drive send (S fuel) call thr (ATTEMPT budget) t) with
    (match step send call thr (ATTEMPT budget) t with
     | None => ([], ATTEMPT budget, t)
     | Some (a, st', t1) =>
         let '(acts, st'', t'') := drive send fuel call thr st' t1 in
         (a :: acts, st'', t'')
     end).
  rewrite H1. destruct fuel; reflexivity.
Qed.

(** Transitions compose: [k + n] of them are [k] followed by [n] from
    where the first [k] ended. *)
Lemma drive_app k n call thr st t acts st1 t1 :
  drive send k call thr st t = (acts, st1, t1) ->
  drive send (k + n) call thr st t =
  (let '(acts', st2, t2) := drive send n call thr st1 t1 in
   (acts ++ acts', st2, t2)).
Proof.
  revert st t acts st1 t1.
  induction k as [| k IH]; intros st t acts st1 t1 H.
  - simpl in H. inversion H; subst. simpl.
    destruct (drive send n call thr st1 t1) as [[a2 st2] t2]. reflexivity.
  - simpl in H |- *.
    destruct (step send call thr st t) as [[[a st'] t'] |] eqn:Hstep.
    + destruct (drive send k call thr st' t') as [[acts0 st0] t0] eqn:Hd.
      inversion H; subst.
      rewrite (IH _ _ _ _ _ Hd).
      destruct (drive send n call thr st1 t1) as [[a2 st2] t2]. reflexivity.
    + inversion H; subst.
      destruct n; simpl; [reflexivity | rewrite Hstep; reflexivity].
Qed.

End FloodWait.

Section Threshold.
Import InvocationWrapper.
Context {Peer RawReply Message Cause Transport : Type}.
Variable send : raw.GetHistory Peer -> Transport ->
                Transport * @Response RawReply Cause.
Variables (retry_budget : nat).
Variable resolve : ChatId -> Result (@Error Cause) Peer.
Variable parse : RawReply -> Result (@Error Cause) (list Message).

(** With a wrapper-backed client, the client state at the end of a fetch is
    the one [invoke] left, and a fetch whose [invoke] did not return has the
    outcome of [invoke]. *)
Lemma run_wrapped fuel chat lim off oid od (rv : bool) n p :
  resolve chat = Returned p ->
  let q := {| raw.peer := p;
              raw.offset_id := py_or oid (if rv then 1 else 0);
              raw.offset_date := utils.datetime_to_timestamp od;
              raw.add_offset :=
                off * (if rv then -1 else 1) - (if rv then lim else 0);
              raw.limit := lim;
              raw.max_id := 0; raw.min_id := 0; raw.hash := 0 |} in
  let o := run (client send retry_budget fuel resolve parse)
               (get_history chat lim off oid od rv) n in
  final o = fst (invoke_on send retry_budget fuel q 60 n)
  /\ (forall e, snd (invoke_on send retry_budget fuel q 60 n) = Raised e ->
                result o = Raised e).
Proof.
  intros Hres q o. subst o. unfold get_history; simpl; unfold await.
  rewrite Hres; simpl. fold q.
  destruct (invoke_on send retry_budget fuel q 60 n) as [n' [r | e | ]]; simpl.
  - split; [destruct (parse r); reflexivity | discriminate].
  - split; [reflexivity | intros e' H; inversion H; reflexivity].
  - split; [reflexivity | discriminate].
Qed.

(** The request of a wrapper-backed fetch whose peer resolved to [p]. *)
Lemma wrapped_invokes fuel chat lim off oid od (rv : bool) n p :
  resolve chat = Returned p ->
  In (CallInvoke
        {| raw.peer := p;
           raw.offset_id := py_or oid (if rv then 1 else 0);
           raw.offset_date := utils.datetime_to_timestamp od;
           raw.add_offset :=
             off * (if rv then -1 else 1) - (if rv then lim else 0);
           raw.limit := lim;
           raw.max_id := 0; raw.min_id := 0; raw.hash := 0 |} 60)
     (calls (run (client send retry_budget fuel resolve parse)
                 (get_history chat lim off oid od rv) n)).
Proof.
  intros Hres. unfold get_history; simpl; unfold await.
  rewrite Hres; simpl. right.
  match goal with
  | |- context [invoke_on send retry_budget fuel ?Q 60 n] =>
      destruct (invoke_on send retry_budget fuel Q 60 n) as [n' [r | e | ]]
  end; simpl; left; reflexivity.
Qed.

End Threshold.

(** C4: a fetch whose peer resolves awaits [invoke] for its request, and
    every [invoke] awaited by [get_history] carries [sleep_threshold=60].
    Under a wrapper-backed client, whenever the wrapper is in ATTEMPT (after
    any number [k] of its transitions) and the transport answers the send
    with a rate-limit signal of [wait] seconds: when [wait] is at most 60
    the wrapper suspends for [wait] and then sends the same request again;
    when [wait] is above 60 the fetch fails with [FloodWait wait] after that
    send, with nothing sent again. *)
Theorem flood_wait_threshold :
  (forall Peer RawReply Message Exn World
          (cl : Client Peer RawReply Message Exn World)
          chat lim off oid od rv w,
      let o := run cl (get_history chat lim off oid od rv) w in
      (forall w1 p,
          do_resolve_peer cl chat w = (w1, Returned p) ->
          exists q, raw.peer q = p /\ In (CallInvoke q 60) (calls o))
      /\ (forall q thr, In (CallInvoke q thr) (calls o) -> thr = 60))
  /\ (forall Peer RawReply Message Cause Transport
          (send : raw.GetHistory Peer -> Transport ->
                  Transport * @InvocationWrapper.Response RawReply Cause)
          retry_budget
          (resolve : ChatId -> Result (@InvocationWrapper.Error Cause) Peer)
          (parse : RawReply ->
                   Result (@InvocationWrapper.Error Cause) (list Message))
          chat lim off oid od rv (t0 : Transport) p,
      let o := fun fuel =>
                 run (InvocationWrapper.client send retry_budget fuel
                        resolve parse)
                     (get_history chat lim off oid od rv)
                     {| InvocationWrapper.transport := t0;
                        InvocationWrapper.journal := [] |} in
      resolve chat = Returned p ->
      exists q,
        raw.peer q = p
        /\ (forall fuel, In (CallInvoke q 60) (calls (o fuel)))
        /\ (forall k acts budget t t' wait,
              InvocationWrapper.drive send k q 60
                (InvocationWrapper.ATTEMPT retry_budget) t0
              = (acts, InvocationWrapper.ATTEMPT budget, t) ->
              send q t = (t', InvocationWrapper.RateLimitSignal wait) ->
              (wait <= 60 ->
               forall fuel, exists rest,
                 InvocationWrapper.journal (final (o (k + S (S (S fuel)))%nat))
                 = acts ++ InvocationWrapper.Send q
                      :: InvocationWrapper.Suspend wait
                      :: InvocationWrapper.Send q :: rest)
              /\ (60 < wait ->
                  forall fuel,
                    result (o (k + S fuel)%nat)
                    = Raised (InvocationWrapper.FloodWait wait)
                    /\ InvocationWrapper.journal (final (o (k + S fuel)%nat))
                       = acts ++ [InvocationWrapper.Send q]
                    /\ InvocationWrapper.transport (final (o (k + S fuel)%nat))
                       = t'))).
Proof.
  split.
  - intros Peer RawReply Message Exn World cl chat lim off oid od rv w o.
    split.
    + intros w1 p Hres.
      exact (resolved_invokes cl chat lim off oid od rv w w1 p Hres).
    + intros q thr H. apply invoked_request in H. tauto.
  - intros Peer RawReply Message Cause Transport send retry_budget
      resolve parse chat lim off oid od rv t0 p o Hres.
    set (n0 := {| InvocationWrapper.transport := t0;
                  InvocationWrapper.journal := [] |}) in *.
    eexists. split; [| split].
    2: { intros fuel.
         exact (wrapped_invokes send retry_budget resolve parse fuel
                  chat lim off oid od rv n0 p Hres). }
    + reflexivity.
    + intros k acts budget t t' wait Hk Hsend.
      split.
      * intros Hle fuel.
        destruct (run_wrapped send retry_budget resolve parse
                    (k + S (S (S fuel)))%nat chat lim off oid od rv n0 p Hres)
          as [Hfinal _].
        unfold o. rewrite Hfinal.
        unfold InvocationWrapper.invoke_on, InvocationWrapper.invoke.
        simpl InvocationWrapper.transport.
        rewrite (drive_app send k (S (S (S fuel))) _ 60 _ t0 acts _ t Hk).
        rewrite (drive_wait_retry send (S fuel) _ 60 budget t t' wait
                   Hsend Hle).
        match goal with
        | |- context [InvocationWrapper.drive send (S fuel) ?Q 60 _ t'] =>
            destruct (drive_attempt_sends send fuel Q 60 budget t')
              as (rest & st & t2 & Hd)
        end.
        rewrite Hd. simpl. exists rest. reflexivity.
      * intros Hlt fuel.
        destruct (run_wrapped send retry_budget resolve parse
                    (k + S fuel)%nat chat lim off oid od rv n0 p Hres)
          as [Hfinal Hraise].
        unfold o. rewrite Hfinal.
        split; [apply Hraise |];
          unfold InvocationWrapper.invoke_on, InvocationWrapper.invoke;
          simpl InvocationWrapper.transport;
          rewrite (drive_app send k (S fuel) _ 60 _ t0 acts _ t Hk);
          rewrite (drive_flood_wait send fuel _ 60 budget t t' wait
                     Hsend Hlt); simpl; [reflexivity | split; reflexivity].
Qed.

(** ** Worked instances *)

Section Instances.
Import InvocationWrapper.
Local Open Scope string_scope.

(** [app.get_history("me", offset=5, limit=3)] sends [add_offset=5], and
    with [reverse=True] it sends [add_offset=-8]. *)
Lemma add_offset_on_wire_witness :
  do_resolve_peer Demo.client Demo.me 0%nat = (0%nat, Returned Demo.saved_messages)
  /\ (exists q,
        raw.peer q = Demo.saved_messages
        /\ In (CallInvoke q 60)
              (calls (run Demo.client
                        (get_history Demo.me 3 5 0 Demo.epoch false) 0%nat))
        /\ raw.add_offset q = 5)
  /\ (exists q,
        raw.peer q = Demo.saved_messages
        /\ In (CallInvoke q 60)
              (calls (run Demo.client
                        (get_history Demo.me 3 5 0 Demo.epoch true) 0%nat))
        /\ raw.add_offset q = - 5 - 3).
Proof.
  assert (Hres : do_resolve_peer Demo.client Demo.me 0%nat
                 = (0%nat, Returned Demo.saved_messages)) by reflexivity.
  split; [exact Hres |]. split.
  - destruct (proj1 (add_offset_on_wire Demo.client Demo.me 3 5 0 Demo.epoch
                       false 0%nat) _ _ Hres)
      as (q & Hp & Hin & _ & Hf & _).
    exists q. exact (conj Hp (conj Hin (Hf eq_refl))).
  - destruct (proj1 (add_offset_on_wire Demo.client Demo.me 3 5 0 Demo.epoch
                       true 0%nat) _ _ Hres)
      as (q & Hp & Hin & _ & _ & Hr).
    exists q. exact (conj Hp (conj Hin (Hr eq_refl))).
Defined.

(** The same call with [reverse=True] sends [add_offset=-8]. *)
Example add_offset_reverse :
  exists q,
    In (CallInvoke q 60)
       (calls (run Demo.client (get_history Demo.me 3 5 0 Demo.epoch true) 0%nat))
    /\ raw.add_offset q = -8 /\ raw.offset_id q = 1.
Proof. eexists; split; [vm_compute; right; left; reflexivity | split; reflexivity]. Qed.



(** [offset_id=-7] with [reverse=True] goes out as [offset_id=-7]. *)
Lemma nonzero_offset_id_unchanged_witness :
  let q := {| raw.peer := Demo.saved_messages; raw.offset_id := -7;
              raw.offset_date := 0; raw.add_offset := -3; raw.limit := 3;
              raw.max_id := 0; raw.min_id := 0; raw.hash := 0 |} in
  In (CallInvoke q 60)
     (calls (run Demo.client (get_history Demo.me 3 0 (-7) Demo.epoch true) 0%nat))
  /\ -7 < 0
  /\ raw.offset_id q = -7.
Proof.
  intros q.
  assert (H : In (CallInvoke q 60)
                 (calls (run Demo.client
                           (get_history Demo.me 3 0 (-7) Demo.epoch true) 0%nat)))
    by (vm_compute; auto).
  assert (Hneg : -7 < 0) by lia.
  split; [exact H | split; [exact Hneg |]].
  exact (proj1 (proj2 (nonzero_offset_id_unchanged _ _ _ _ _ _ _ _ _ _ H)) Hneg).
Defined.

(** [offset=5, limit=3] asked in both directions from the same state. *)
Lemma reverse_frame_witness :
  let q1 := {| raw.peer := Demo.saved_messages; raw.offset_id := 1;
               raw.offset_date := 0; raw.add_offset := -8; raw.limit := 3;
               raw.max_id := 0; raw.min_id := 0; raw.hash := 0 |} in
  let q2 := {| raw.peer := Demo.saved_messages; raw.offset_id := 0;
               raw.offset_date := 0; raw.add_offset := 5; raw.limit := 3;
               raw.max_id := 0; raw.min_id := 0; raw.hash := 0 |} in
  In (CallInvoke q1 60)
     (calls (run Demo.client (get_history Demo.me 3 5 0 Demo.epoch true) 0%nat))
  /\ In (CallInvoke q2 60)
        (calls (run Demo.client (get_history Demo.me 3 5 0 Demo.epoch false) 0%nat))
  /\ raw.peer q1 = raw.peer q2
  /\ raw.offset_date q1 = raw.offset_date q2
  /\ raw.limit q1 = raw.limit q2.
Proof.
  intros q1 q2.
  assert (H1 : In (CallInvoke q1 60)
                  (calls (run Demo.client
                            (get_history Demo.me 3 5 0 Demo.epoch true) 0%nat)))
    by (vm_compute; auto).
  assert (H2 : In (CallInvoke q2 60)
                  (calls (run Demo.client
                            (get_history Demo.me 3 5 0 Demo.epoch false) 0%nat)))
    by (vm_compute; auto).
  split; [exact H1 | split; [exact H2 |]].
  destruct (reverse_frame _ _ _ _ _ _ _ _ _ _ _ H1 H2)
    as (Hp & Hd & Hl & _).
  exact (conj Hp (conj Hd Hl)).
Defined.

(** The username and the numeric id of the same peer, asked from two
    client states, give one request. *)
Lemma request_deterministic_witness :
  let q := {| raw.peer := Demo.saved_messages; raw.offset_id := 40;
              raw.offset_date := 1600000000; raw.add_offset := 5;
              raw.limit := 3;
              raw.max_id := 0; raw.min_id := 0; raw.hash := 0 |} in
  let od := datetime_.fromtimestamp 1600000000 in
  In (CallInvoke q 60)
     (calls (run Demo.client (get_history Demo.me 3 5 40 od false) 0%nat))
  /\ In (CallInvoke q 60)
        (calls (run Demo.client (get_history (ChatInt 777) 3 5 40 od false) 9%nat))
  /\ raw.peer q = raw.peer q
  /\ q = q /\ 60 = 60.
Proof.
  intros q od.
  assert (H1 : In (CallInvoke q 60)
                  (calls (run Demo.client
                            (get_history Demo.me 3 5 40 od false) 0%nat)))
    by (vm_compute; auto).
  assert (H2 : In (CallInvoke q 60)
                  (calls (run Demo.client
                            (get_history (ChatInt 777) 3 5 40 od false) 9%nat)))
    by (vm_compute; auto).
  split; [exact H1 | split; [exact H2 | split; [reflexivity |]]].
  exact (request_deterministic _ _ _ _ _ _ _ _ _ _ _ _ _ _ _ H1 H2 eq_refl).
Defined.


(** A reply parsed as [A, B, C] is returned as [C, B, A] by the fetch
    with [reverse=True] and as [A, B, C] by the fetch with
    [reverse=False]. *)
Lemma normalize_reverse_roundtrip_witness :
  let qr := {| raw.peer := Demo.saved_messages; raw.offset_id := 1;
               raw.offset_date := 0; raw.add_offset := -3; raw.limit := 3;
               raw.max_id := 0; raw.min_id := 0; raw.hash := 0 |} in
  let qf := {| raw.peer := Demo.saved_messages; raw.offset_id := 0;
               raw.offset_date := 0; raw.add_offset := 0; raw.limit := 3;
               raw.max_id := 0; raw.min_id := 0; raw.hash := 0 |} in
  let o_r := run Demo.client (get_history Demo.me 3 0 0 Demo.epoch true) 0%nat in
  let o_f := run Demo.client (get_history Demo.me 3 0 0 Demo.epoch false) 0%nat in
  In (CallInvoke qr 60) (calls o_r)
  /\ do_resolve_peer Demo.client Demo.me 0%nat
     = (0%nat, Returned (raw.peer qr))
  /\ do_invoke Demo.client qr 60 0%nat = (1%nat, Returned ["A"; "B"; "C"])
  /\ In (CallInvoke qf 60) (calls o_f)
  /\ do_resolve_peer Demo.client Demo.me 0%nat
     = (0%nat, Returned (raw.peer qf))
  /\ do_invoke Demo.client qf 60 0%nat = (1%nat, Returned ["A"; "B"; "C"])
  /\ result o_r = Returned ["C"; "B"; "A"]
  /\ result o_f = Returned (rev ["C"; "B"; "A"]).
Proof.
  intros qr qf o_r o_f.
  assert (H1 : In (CallInvoke qr 60) (calls o_r)) by (vm_compute; auto).
  assert (H2 : do_resolve_peer Demo.client Demo.me 0%nat
               = (0%nat, Returned (raw.peer qr))) by reflexivity.
  assert (H3 : do_invoke Demo.client qr 60 0%nat
               = (1%nat, Returned ["A"; "B"; "C"])) by reflexivity.
  assert (H4 : In (CallInvoke qf 60) (calls o_f)) by (vm_compute; auto).
  assert (H5 : do_resolve_peer Demo.client Demo.me 0%nat
               = (0%nat, Returned (raw.peer qf))) by reflexivity.
  assert (H6 : do_invoke Demo.client qf 60 0%nat
               = (1%nat, Returned ["A"; "B"; "C"])) by reflexivity.
  assert (H7 : result o_r = Returned ["C"; "B"; "A"]) by reflexivity.
  split; [exact H1 | split; [exact H2 | split; [exact H3 | split; [exact H4 |
    split; [exact H5 | split; [exact H6 | split; [exact H7 |]]]]]]].
  exact (proj1 (proj1 (proj2 (normalize_reverse_roundtrip Demo.client
                                ["A"; "B"; "C"] 1%nat))
                  Demo.me 3 0 0 Demo.epoch 0%nat 0%nat qr 60
                  Demo.me 3 0 0 Demo.epoch 0%nat 0%nat qf 60
                  H1 H2 H3 H4 H5 H6) _ H7).
Defined.

(** The two scenarios of the whole fetch. *)
Example fetch_forward :
  result (run Demo.client (get_history Demo.me 3 0 0 Demo.epoch false) 0%nat)
    = Returned ["A"; "B"; "C"].
Proof. reflexivity. Qed.

Example fetch_reverse :
  result (run Demo.client (get_history Demo.me 3 0 0 Demo.epoch true) 0%nat)
    = Returned ["C"; "B"; "A"].
Proof. reflexivity. Qed.

(** An unknown username: the exception of [resolve_peer] comes out, and
    nothing was sent.  A negative limit: the exception of [invoke] comes
    out. *)
Lemma failures_propagate_witness :
  let o := run Demo.client
             (get_history (ChatStr "nobody") 3 0 0 Demo.epoch false) 0%nat in
  do_resolve_peer Demo.client (ChatStr "nobody") 0%nat
    = (0%nat, Raised "USERNAME_NOT_OCCUPIED")
  /\ result o = Raised "USERNAME_NOT_OCCUPIED" /\ final o = 0%nat.
Proof.
  intros o.
  assert (H : do_resolve_peer Demo.client (ChatStr "nobody") 0%nat
              = (0%nat, Raised "USERNAME_NOT_OCCUPIED")) by reflexivity.
  split; [exact H |].
  exact (proj1 (failures_propagate Demo.client (ChatStr "nobody") 3 0 0
                  Demo.epoch false 0%nat) _ _ H).
Defined.

Example invoke_failure_propagates :
  let o := run Demo.client (get_history Demo.me (-1) 0 0 Demo.epoch false) 0%nat in
  result o = Raised "LIMIT_INVALID"
  /\ calls o = [CallResolvePeer Demo.me;
                CallInvoke {| raw.peer := Demo.saved_messages;
                              raw.offset_id := 0; raw.offset_date := 0;
                              raw.add_offset := 0; raw.limit := -1;
                              raw.max_id := 0; raw.min_id := 0;
                              raw.hash := 0 |} 60].
Proof. split; reflexivity. Qed.

(** A server that rate-limits the first two requests for 10 seconds:
    the second signal, met after two transitions of the wrapper, is
    absorbed like the first, and the same request goes out a third time. *)
Lemma flood_wait_threshold_witness :
  let send := DemoNet.send_first 2 10 in
  let o := fun fuel =>
             run (InvocationWrapper.client send 2 fuel
                    (fun _ => Returned Demo.saved_messages)
                    (fun r : Demo.RawReply =>
                       @Returned (@Error DemoNet.Cause) (list Demo.Message) r))
                 (get_history Demo.me 3 0 0 Demo.epoch false)
                 DemoNet.start in
  exists q,
    raw.peer q = Demo.saved_messages
    /\ In (CallInvoke q 60) (calls (o 5%nat))
    /\ drive send 2 q 60 (ATTEMPT 2) 0%nat
       = ([Send q; Suspend 10], ATTEMPT 2, 1%nat)
    /\ send q 1%nat = (2%nat, RateLimitSignal 10)
    /\ 10 <= 60
    /\ exists rest,
         journal (final (o (2 + 3)%nat))
         = ([Send q; Suspend 10] ++ Send q :: Suspend 10 :: Send q :: rest)%list.
Proof.
  intros send o.
  destruct (proj2 flood_wait_threshold
              Demo.Peer Demo.RawReply Demo.Message DemoNet.Cause
              DemoNet.Transport send 2%nat
              (fun _ => Returned Demo.saved_messages)
              (fun r : Demo.RawReply =>
                 @Returned (@Error DemoNet.Cause) (list Demo.Message) r)
              Demo.me 3 0 0 Demo.epoch false 0%nat Demo.saved_messages
              eq_refl)
    as (q & Hp & Hin & Hsig).
  exists q.
  assert (Hk : drive send 2 q 60 (ATTEMPT 2) 0%nat
               = ([Send q; Suspend 10], ATTEMPT 2, 1%nat)) by reflexivity.
  assert (Hs : send q 1%nat = (2%nat, RateLimitSignal 10)) by reflexivity.
  assert (Hle : 10 <= 60) by lia.
  split; [exact Hp | split; [exact (Hin 5%nat) | split; [exact Hk |
    split; [exact Hs | split; [exact Hle |]]]]].
  exact (proj1 (Hsig 2%nat _ _ _ _ _ Hk Hs) Hle 0%nat).
Defined.

(** The scenario in full: exactly one suspend-then-retry cycle and the
    reply of the second send. *)
Example flood_wait_10 :
  let o := run (DemoNet.client 10)
             (get_history Demo.me 3 0 0 Demo.epoch false) DemoNet.start in
  result o = Returned ["A"; "B"; "C"]
  /\ journal (final o)
     = [Send DemoNet.last_three; Suspend 10; Send DemoNet.last_three].
Proof. split; reflexivity. Qed.

(** 120 seconds under the same threshold: [FloodWait 120] after the one
    send. *)
Example flood_wait_120 :
  let o := run (DemoNet.client 120)
             (get_history Demo.me 3 0 0 Demo.epoch false) DemoNet.start in
  result o = Raised (FloodWait 120)
  /\ journal (final o) = [Send DemoNet.last_three]
  /\ calls o = [CallResolvePeer Demo.me; CallInvoke DemoNet.last_three 60].
Proof. repeat split; reflexivity. Qed.

End Instances.

(** ** More about [get_history]: what is awaited, and in which order *)

Section Sequence.
Context {Peer RawReply Message Exn World : Type}.
Implicit Types (cl : Client Peer RawReply Message Exn World) (w : World).
Implicit Types (q : raw.GetHistory Peer) (chat : ChatId) (rv : bool).

(** The run of [get_history], case by case on what the three awaited calls
    give back. *)
Lemma run_get_history_cases cl chat lim off oid od rv w :
  let o := run cl (get_history chat lim off oid od rv) w in
  (exists w1 res,
      do_resolve_peer cl chat w = (w1, res)
      /\ (forall p, res <> Returned p)
      /\ calls o = [CallResolvePeer chat] /\ final o = w1
      /\ (forall ms, result o <> Returned ms))
  \/ (exists q w1 w2 res,
      do_resolve_peer cl chat w = (w1, Returned (raw.peer q))
      /\ do_invoke cl q 60 w1 = (w2, res)
      /\ (forall r, res <> Returned r)
      /\ calls o = [CallResolvePeer chat; CallInvoke q 60] /\ final o = w2
      /\ (forall ms, result o <> Returned ms))
  \/ (exists q r w1 w2 w3 res,
      do_resolve_peer cl chat w = (w1, Returned (raw.peer q))
      /\ do_invoke cl q 60 w1 = (w2, Returned r)
      /\ do_parse_messages cl r w2 = (w3, res)
      /\ calls o = [CallResolvePeer chat; CallInvoke q 60; CallParseMessages r]
      /\ final o = w3
      /\ (forall ms, result o = Returned ms <->
                     exists msgs, res = Returned msgs
                                  /\ ms = if rv then rev msgs else msgs)).
Proof.
  intros o; subst o. unfold get_history; simpl; unfold await.
  destruct (do_resolve_peer cl chat w) as [w1 [p | e1 | ]] eqn:Hres; simpl;
    [| left; exists w1; eexists; repeat split; discriminate
     | left; exists w1; eexists; repeat split; discriminate ].
  right.
  match goal with
  | |- context [do_invoke cl ?Q 60 w1] => set (q := Q)
  end.
  destruct (do_invoke cl q 60 w1) as [w2 [r | e2 | ]] eqn:Hinv; simpl;
    [| left; exists q, w1, w2; eexists; repeat split;
       try exact Hinv; discriminate
     | left; exists q, w1, w2; eexists; repeat split;
       try exact Hinv; discriminate ].
  right. exists q, r, w1, w2.
  destruct (do_parse_messages cl r w2) as [w3 [msgs | e3 | ]] eqn:Hparse;
    simpl; exists w3; eexists; (split; [reflexivity |]);
    (split; [exact Hinv |]); (split; [reflexivity |]);
    (split; [reflexivity |]); (split; [reflexivity |]); intros ms; split.
  - intros H; inversion H; subst. exists msgs. split; reflexivity.
  - intros (msgs' & H & ->). inversion H; subst. reflexivity.
  - discriminate.
  - intros (msgs' & H & _). discriminate H.
  - discriminate.
  - intros (msgs' & H & _). discriminate H.
Qed.

(** X1: one fetch awaits [resolve_peer] once, then [invoke] at most once,
    then [parse_messages] at most once, in this order and nothing else: the
    request is never sent twice by this layer. *)
Theorem awaited_calls_shape cl chat lim off oid od rv w :
  let o := run cl (get_history chat lim off oid od rv) w in
  calls o = [CallResolvePeer chat]
  \/ (exists q, calls o = [CallResolvePeer chat; CallInvoke q 60])
  \/ (exists q r, calls o = [CallResolvePeer chat; CallInvoke q 60;
                             CallParseMessages r]).
Proof.
  intros o.
  destruct (run_get_history_cases cl chat lim off oid od rv w)
    as [(w1 & res & _ & _ & Hc & _)
       | [(q & w1 & w2 & res & _ & _ & _ & Hc & _)
         | (q & r & w1 & w2 & w3 & res & _ & _ & _ & Hc & _)]];
    fold o in Hc.
  - left; exact Hc.
  - right; left; exists q; exact Hc.
  - right; right; exists q, r; exact Hc.
Qed.

(** X2: a request is sent exactly when [resolve_peer] returned a peer, and
    a reply [r] is handed to [parse_messages] exactly when the request was
    sent and [invoke] returned [r]. *)
Theorem sent_iff_resolved cl chat lim off oid od rv w :
  let o := run cl (get_history chat lim off oid od rv) w in
  ((exists q thr, In (CallInvoke q thr) (calls o))
   <-> (exists w1 p, do_resolve_peer cl chat w = (w1, Returned p)))
  /\ (forall r,
       In (CallParseMessages r) (calls o)
       <-> (exists q w1 w2,
              do_resolve_peer cl chat w = (w1, Returned (raw.peer q))
              /\ In (CallInvoke q 60) (calls o)
              /\ do_invoke cl q 60 w1 = (w2, Returned r))).
Proof.
  intros o.
  destruct (run_get_history_cases cl chat lim off oid od rv w)
    as [(w1 & res & Hres & Hnot & Hc & _)
       | [(q & w1 & w2 & res & Hres & Hinv & Hnot & Hc & _)
         | (q & r0 & w1 & w2 & w3 & res & Hres & Hinv & _ & Hc & _)]];
    fold o in Hc; rewrite Hc; simpl.
  - split; [split |].
    + intros (q & thr & [H | []]); discriminate H.
    + intros (w1' & p & H). rewrite Hres in H. inversion H; subst.
      exfalso; exact (Hnot p eq_refl).
    + intros r; split.
      * intros [H | []]; discriminate H.
      * intros (q & w1' & w2 & H & _). rewrite Hres in H. inversion H; subst.
        exfalso; exact (Hnot _ eq_refl).
  - split; [split |].
    + intros _. exists w1, (raw.peer q). exact Hres.
    + intros _. exists q, 60. right; left; reflexivity.
    + intros r; split.
      * intros [H | [H | []]]; discriminate H.
      * intros (q' & w1' & w2' & H1 & [H2 | [H2 | []]] & H3);
          [discriminate H2 |].
        inversion H2; subst q'. rewrite Hres in H1. inversion H1; subst w1'.
        rewrite Hinv in H3. inversion H3; subst.
        exfalso; exact (Hnot _ eq_refl).
  - split; [split |].
    + intros _. exists w1, (raw.peer q). exact Hres.
    + intros _. exists q, 60. right; left; reflexivity.
    + intros r; split.
      * intros [H | [H | [H | []]]]; try discriminate H.
        inversion H; subst r. exists q, w1, w2.
        split; [exact Hres | split; [right; left; reflexivity | exact Hinv]].
      * intros (q' & w1' & w2' & H1 & [H2 | [H2 | [H2 | []]]] & H3);
          try discriminate H2.
        inversion H2; subst q'. rewrite Hres in H1. inversion H1; subst w1'.
        rewrite Hinv in H3. inversion H3; subst.
        right; right; left; reflexivity.
Qed.

(** X3: the returned sequence holds the parsed messages, all of them and
    each as often as parsed: it is a permutation of the parser's list, of
    the same length, and the parser's list itself when [reverse] is false. *)
Theorem returned_is_parsed cl chat lim off oid od rv w ms :
  let o := run cl (get_history chat lim off oid od rv) w in
  result o = Returned ms ->
  exists r w2 w3 msgs,
    In (CallParseMessages r) (calls o)
    /\ do_parse_messages cl r w2 = (w3, Returned msgs)
    /\ Permutation msgs ms
    /\ List.length ms = List.length msgs
    /\ (rv = false -> ms = msgs)
    /\ (rv = true -> ms = rev msgs).
Proof.
  intros o Hret.
  destruct (run_get_history_cases cl chat lim off oid od rv w)
    as [(w1 & res & _ & _ & _ & _ & Hno)
       | [(q & w1 & w2 & res & _ & _ & _ & _ & _ & Hno)
         | (q & r & w1 & w2 & w3 & res & _ & _ & Hparse & Hc & _ & Hiff)]];
    fold o in Hno || fold o in Hc, Hiff.
  - exfalso; exact (Hno ms Hret).
  - exfalso; exact (Hno ms Hret).
  - apply Hiff in Hret. destruct Hret as (msgs & -> & ->).
    exists r, w2, w3, msgs.
    split; [rewrite Hc; right; right; left; reflexivity |].
    split; [exact Hparse |].
    destruct rv.
    + split; [apply Permutation_rev |].
      split; [apply length_rev |].
      split; [discriminate | reflexivity].
    + split; [apply Permutation_refl |].
      split; [reflexivity |].
      split; [reflexivity | discriminate].
Qed.

End Sequence.

(** ** More about the request *)

Section Pagination.
Context {Peer RawReply Message Exn World : Type}.
Implicit Types (cl : Client Peer RawReply Message Exn World) (w : World).
Implicit Types (q : raw.GetHistory Peer) (chat : ChatId) (rv : bool).

(** X4: with [reverse=True] the request never carries [offset_id=0]; a
    request carries [offset_id=0] exactly when the caller's [offset_id] is 0
    and [reverse] is false. *)
Theorem reverse_offset_id_nonzero cl chat lim off oid od rv w q thr :
  In (CallInvoke q thr) (calls (run cl (get_history chat lim off oid od rv) w)) ->
  (rv = true -> raw.offset_id q <> 0)
  /\ (raw.offset_id q = 0 <-> oid = 0 /\ rv = false).
Proof.
  intros H. apply invoked_request in H. destruct H as (_ & _ & ->); simpl.
  unfold py_or. destruct (Z.eqb_spec oid 0) as [-> | Hnz]; destruct rv;
    repeat split; intros; try discriminate; try lia; try tauto;
    try (destruct H; congruence).
Qed.

(** X5: the [offset_id] that went out, passed back as the caller's
    [offset_id] of another fetch in the same direction, goes out unchanged:
    the substitution of line 85 is idempotent. *)
Theorem offset_id_fed_back cl chat lim off oid od rv w q thr
    cl' chat' lim' off' od' w' q' thr' :
  In (CallInvoke q thr) (calls (run cl (get_history chat lim off oid od rv) w)) ->
  In (CallInvoke q' thr')
     (calls (run cl' (get_history chat' lim' off' (raw.offset_id q) od' rv) w')) ->
  raw.offset_id q' = raw.offset_id q.
Proof.
  intros H H'.
  apply invoked_request in H. destruct H as (_ & _ & E).
  apply invoked_request in H'. destruct H' as (_ & _ & E').
  rewrite E'; simpl. rewrite E; simpl.
  unfold py_or. destruct (Z.eqb_spec oid 0) as [-> | Hnz].
  - destruct rv; reflexivity.
  - destruct (Z.eqb_spec oid 0); [contradiction | reflexivity].
Qed.

(** X6: asking for the next page, [offset + limit] in place of [offset],
    moves [add_offset] by [limit] forwards and by [-limit] in reverse, and
    leaves [offset_id], [offset_date] and [limit] of the request as they
    were. *)
Theorem next_page cl chat lim off oid od rv w w' q thr q' thr' :
  In (CallInvoke q thr)
     (calls (run cl (get_history chat lim off oid od rv) w)) ->
  In (CallInvoke q' thr')
     (calls (run cl (get_history chat lim (off + lim) oid od rv) w')) ->
  raw.add_offset q' = raw.add_offset q + (if rv then - lim else lim)
  /\ raw.offset_id q' = raw.offset_id q
  /\ raw.offset_date q' = raw.offset_date q
  /\ raw.limit q' = raw.limit q.
Proof.
  intros H H'.
  apply invoked_request in H. destruct H as (_ & _ & E).
  apply invoked_request in H'. destruct H' as (_ & _ & E').
  rewrite E, E'; simpl.
  split; [destruct rv; lia | repeat split].
Qed.

(** X7: for the same arguments, the [add_offset] sent with [reverse=True]
    is the one sent with [reverse=False], negated, less [limit]; and it is
    the negation of the forward [add_offset] of the next page. *)
Theorem reverse_mirrors_forward cl chat lim off oid od w1 w2 w3
    qr thr1 qf thr2 qn thr3 :
  In (CallInvoke qr thr1)
     (calls (run cl (get_history chat lim off oid od true) w1)) ->
  In (CallInvoke qf thr2)
     (calls (run cl (get_history chat lim off oid od false) w2)) ->
  In (CallInvoke qn thr3)
     (calls (run cl (get_history chat lim (off + lim) oid od false) w3)) ->
  raw.add_offset qr = - raw.add_offset qf - lim
  /\ raw.add_offset qr = - raw.add_offset qn.
Proof.
  intros Hr Hf Hn.
  apply invoked_request in Hr. destruct Hr as (_ & _ & Er).
  apply invoked_request in Hf. destruct Hf as (_ & _ & Ef).
  apply invoked_request in Hn. destruct Hn as (_ & _ & En).
  rewrite Er, Ef, En; simpl. split; lia.
Qed.

(** X8: when the server answers the reverse request as it answers the
    forward one (same reply, same client state), the whole fetch with
    [reverse=True] returns the reversal of what the fetch with
    [reverse=False] returns, each returns exactly when the other does, and
    they leave the same client state. *)
Theorem fetch_reverse_is_rev cl chat lim off oid od w w1 qr thr1 qf thr2 :
  let o_r := run cl (get_history chat lim off oid od true) w in
  let o_f := run cl (get_history chat lim off oid od false) w in
  In (CallInvoke qr thr1) (calls o_r) ->
  In (CallInvoke qf thr2) (calls o_f) ->
  do_resolve_peer cl chat w = (w1, Returned (raw.peer qr)) ->
  do_invoke cl qr 60 w1 = do_invoke cl qf 60 w1 ->
  (forall ms, result o_f = Returned ms -> result o_r = Returned (rev ms))
  /\ (forall ms, result o_r = Returned ms -> result o_f = Returned (rev ms))
  /\ final o_r = final o_f.
Proof.
  intros o_r o_f Hr Hf Hres Hsame.
  apply invoked_request in Hr. destruct Hr as (_ & _ & Er).
  apply invoked_request in Hf. destruct Hf as ((w1' & Hres') & _ & Ef).
  rewrite Hres in Hres'. inversion Hres' as [[Hw Hp]]. clear Hres' Hw.
  rewrite <- Hp in Ef.
  subst o_r o_f. unfold get_history; simpl; unfold await.
  rewrite Hres; simpl. rewrite <- Er, <- Ef, Hsame.
  destruct (do_invoke cl qf 60 w1) as [w2 [r | e | ]]; simpl;
    [| repeat split; intros ms H; discriminate H
     | repeat split; intros ms H; discriminate H ].
  destruct (do_parse_messages cl r w2) as [w3 [msgs | e | ]]; simpl;
    repeat split; intros ms H; try discriminate H; inversion H; subst.
  - reflexivity.
  - rewrite rev_involutive. reflexivity.
Qed.

End Pagination.

(** ** Worked instances, continued *)

Section MoreInstances.
Local Open Scope string_scope.

(** The reverse fetch of the three messages returns all three. *)
Lemma returned_is_parsed_witness :
  let o := run Demo.client (get_history Demo.me 3 0 0 Demo.epoch true) 0%nat in
  result o = Returned ["C"; "B"; "A"]
  /\ exists r w2 w3 msgs,
       In (CallParseMessages r) (calls o)
       /\ do_parse_messages Demo.client r w2 = (w3, Returned msgs)
       /\ Permutation msgs ["C"; "B"; "A"]
       /\ List.length ["C"; "B"; "A"] = List.length msgs
       /\ (true = false -> ["C"; "B"; "A"] = msgs)
       /\ (true = true -> ["C"; "B"; "A"] = rev msgs).
Proof.
  intros o.
  assert (H : result o = Returned ["C"; "B"; "A"]) by reflexivity.
  split; [exact H |].
  exact (returned_is_parsed Demo.client Demo.me 3 0 0 Demo.epoch true 0%nat
           ["C"; "B"; "A"] H).
Defined.

(** [reverse=True] without an [offset_id]: the request carries 1. *)
Lemma reverse_offset_id_nonzero_witness :
  let q := {| raw.peer := Demo.saved_messages; raw.offset_id := 1;
              raw.offset_date := 0; raw.add_offset := -3; raw.limit := 3;
              raw.max_id := 0; raw.min_id := 0; raw.hash := 0 |} in
  In (CallInvoke q 60)
     (calls (run Demo.client (get_history Demo.me 3 0 0 Demo.epoch true) 0%nat))
  /\ raw.offset_id q <> 0.
Proof.
  intros q.
  assert (H : In (CallInvoke q 60)
                 (calls (run Demo.client
                           (get_history Demo.me 3 0 0 Demo.epoch true) 0%nat)))
    by (vm_compute; auto).
  split; [exact H |].
  exact (proj1 (reverse_offset_id_nonzero _ _ _ _ _ _ _ _ _ _ H) eq_refl).
Defined.

(** The 1 that went out, passed back with [reverse=True], goes out as 1. *)
Lemma offset_id_fed_back_witness :
  let q := {| raw.peer := Demo.saved_messages; raw.offset_id := 1;
              raw.offset_date := 0; raw.add_offset := -3; raw.limit := 3;
              raw.max_id := 0; raw.min_id := 0; raw.hash := 0 |} in
  let q' := {| raw.peer := 42; raw.offset_id := 1;
               raw.offset_date := 0; raw.add_offset := -12; raw.limit := 10;
               raw.max_id := 0; raw.min_id := 0; raw.hash := 0 |} in
  In (CallInvoke q 60)
     (calls (run Demo.client (get_history Demo.me 3 0 0 Demo.epoch true) 0%nat))
  /\ In (CallInvoke q' 60)
        (calls (run Demo.client
                  (get_history (ChatInt 42) 10 2 (raw.offset_id q) Demo.epoch true)
                  1%nat))
  /\ raw.offset_id q' = raw.offset_id q.
Proof.
  intros q q'.
  assert (H : In (CallInvoke q 60)
                 (calls (run Demo.client
                           (get_history Demo.me 3 0 0 Demo.epoch true) 0%nat)))
    by (vm_compute; auto).
  assert (H' : In (CallInvoke q' 60)
                  (calls (run Demo.client
                            (get_history (ChatInt 42) 10 2 (raw.offset_id q)
                               Demo.epoch true) 1%nat)))
    by (vm_compute; auto).
  split; [exact H | split; [exact H' |]].
  exact (offset_id_fed_back _ _ _ _ _ _ _ _ _ _ _ _ _ _ _ _ _ _ H H').
Defined.

(** Pages of three in reverse: [offset=5], then [offset=8]. *)
Lemma next_page_witness :
  let q := {| raw.peer := Demo.saved_messages; raw.offset_id := 1;
              raw.offset_date := 0; raw.add_offset := -8; raw.limit := 3;
              raw.max_id := 0; raw.min_id := 0; raw.hash := 0 |} in
  let q' := {| raw.peer := Demo.saved_messages; raw.offset_id := 1;
               raw.offset_date := 0; raw.add_offset := -11; raw.limit := 3;
               raw.max_id := 0; raw.min_id := 0; raw.hash := 0 |} in
  In (CallInvoke q 60)
     (calls (run Demo.client (get_history Demo.me 3 5 0 Demo.epoch true) 0%nat))
  /\ In (CallInvoke q' 60)
        (calls (run Demo.client
                  (get_history Demo.me 3 (5 + 3) 0 Demo.epoch true) 1%nat))
  /\ raw.add_offset q' = raw.add_offset q + - 3.
Proof.
  intros q q'.
  assert (H : In (CallInvoke q 60)
                 (calls (run Demo.client
                           (get_history Demo.me 3 5 0 Demo.epoch true) 0%nat)))
    by (vm_compute; auto).
  assert (H' : In (CallInvoke q' 60)
                  (calls (run Demo.client
                            (get_history Demo.me 3 (5 + 3) 0 Demo.epoch true)
                            1%nat)))
    by (vm_compute; auto).
  split; [exact H | split; [exact H' |]].
  exact (proj1 (next_page Demo.client Demo.me 3 5 0 Demo.epoch true
                  0%nat 1%nat q 60 q' 60 H H')).
Defined.

(** [offset=5, limit=3]: -8 in reverse, 5 forwards, 8 for the next page. *)
Lemma reverse_mirrors_forward_witness :
  let qr := {| raw.peer := Demo.saved_messages; raw.offset_id := 1;
               raw.offset_date := 0; raw.add_offset := -8; raw.limit := 3;
               raw.max_id := 0; raw.min_id := 0; raw.hash := 0 |} in
  let qf := {| raw.peer := Demo.saved_messages; raw.offset_id := 0;
               raw.offset_date := 0; raw.add_offset := 5; raw.limit := 3;
               raw.max_id := 0; raw.min_id := 0; raw.hash := 0 |} in
  let qn := {| raw.peer := Demo.saved_messages; raw.offset_id := 0;
               raw.offset_date := 0; raw.add_offset := 8; raw.limit := 3;
               raw.max_id := 0; raw.min_id := 0; raw.hash := 0 |} in
  In (CallInvoke qr 60)
     (calls (run Demo.client (get_history Demo.me 3 5 0 Demo.epoch true) 0%nat))
  /\ In (CallInvoke qf 60)
        (calls (run Demo.client (get_history Demo.me 3 5 0 Demo.epoch false) 0%nat))
  /\ In (CallInvoke qn 60)
        (calls (run Demo.client
                  (get_history Demo.me 3 (5 + 3) 0 Demo.epoch false) 0%nat))
  /\ raw.add_offset qr = - raw.add_offset qf - 3
  /\ raw.add_offset qr = - raw.add_offset qn.
Proof.
  intros qr qf qn.
  assert (Hr : In (CallInvoke qr 60)
                  (calls (run Demo.client
                            (get_history Demo.me 3 5 0 Demo.epoch true) 0%nat)))
    by (vm_compute; auto).
  assert (Hf : In (CallInvoke qf 60)
                  (calls (run Demo.client
                            (get_history Demo.me 3 5 0 Demo.epoch false) 0%nat)))
    by (vm_compute; auto).
  assert (Hn : In (CallInvoke qn 60)
                  (calls (run Demo.client
                            (get_history Demo.me 3 (5 + 3) 0 Demo.epoch false)
                            0%nat)))
    by (vm_compute; auto).
  split; [exact Hr | split; [exact Hf | split; [exact Hn |]]].
  exact (reverse_mirrors_forward Demo.client Demo.me 3 5 0 Demo.epoch
           0%nat 0%nat 0%nat qr 60 qf 60 qn 60 Hr Hf Hn).
Defined.

(** The demo server answers both directions alike: the reverse fetch
    returns the forward one reversed. *)
Lemma fetch_reverse_is_rev_witness :
  let qr := {| raw.peer := Demo.saved_messages; raw.offset_id := 1;
               raw.offset_date := 0; raw.add_offset := -3; raw.limit := 3;
               raw.max_id := 0; raw.min_id := 0; raw.hash := 0 |} in
  let qf := {| raw.peer := Demo.saved_messages; raw.offset_id := 0;
               raw.offset_date := 0; raw.add_offset := 0; raw.limit := 3;
               raw.max_id := 0; raw.min_id := 0; raw.hash := 0 |} in
  let o_r := run Demo.client (get_history Demo.me 3 0 0 Demo.epoch true) 0%nat in
  let o_f := run Demo.client (get_history Demo.me 3 0 0 Demo.epoch false) 0%nat in
  In (CallInvoke qr 60) (calls o_r)
  /\ In (CallInvoke qf 60) (calls o_f)
  /\ do_resolve_peer Demo.client Demo.me 0%nat = (0%nat, Returned (raw.peer qr))
  /\ do_invoke Demo.client qr 60 0%nat = do_invoke Demo.client qf 60 0%nat
  /\ result o_f = Returned ["A"; "B"; "C"]
  /\ result o_r = Returned (rev ["A"; "B"; "C"]).
Proof.
  intros qr qf o_r o_f.
  assert (Hr : In (CallInvoke qr 60) (calls o_r)) by (vm_compute; auto).
  assert (Hf : In (CallInvoke qf 60) (calls o_f)) by (vm_compute; auto).
  assert (Hres : do_resolve_peer Demo.client Demo.me 0%nat
                 = (0%nat, Returned (raw.peer qr))) by reflexivity.
  assert (Hsame : do_invoke Demo.client qr 60 0%nat
                  = do_invoke Demo.client qf 60 0%nat) by reflexivity.
  assert (Hret : result o_f = Returned ["A"; "B"; "C"]) by reflexivity.
  split; [exact Hr | split; [exact Hf | split; [exact Hres |
    split; [exact Hsame | split; [exact Hret |]]]]].
  exact (proj1 (fetch_reverse_is_rev Demo.client Demo.me 3 0 0 Demo.epoch
                  0%nat 0%nat qr 60 qf 60 Hr Hf Hres Hsame) _ Hret).
Defined.

End MoreInstances.
